(** * Configuration loader of [src/utils/config.py]

    A shallow embedding of the module: the Python builtins it calls
    ([int], [float], [str.lower], [pathlib.Path], [os.getenv]), the four
    pydantic models with their validators, the body of [class Config]
    evaluated when the module is imported, [Config.load], and a small
    process model (environment, class defaults, allocated aggregates) for
    the statements about repeated loads and immutability. *)

From Stdlib Require Import ZArith NArith String Ascii List Lia.
From Stdlib Require Import Floats.SpecFloat.
From stdpp Require Import base option list gmap strings.

Import ListNotations.
Local Open Scope string_scope.
Local Open Scope Z_scope.

(** ** The interpreter

    What the builtins take from the interpreter and not from their argument:
    two tables of the Unicode database it was built with, and the limit on
    the number of digits of an integer literal. The interpreter sets the
    limit when it starts, from [PYTHONINTMAXSTRDIGITS] or
    [-X int_max_str_digits] and to 4300 without them, and
    [sys.set_int_max_str_digits] changes it; 0 stands for no limit. *)

Class Interpreter : Type := {
  (** [Py_UNICODE_ISSPACE] *)
  unicode_space : N -> bool;
  (** [Py_UNICODE_TODECIMAL]: the value of a decimal digit, [None] for any
      other character *)
  unicode_decimal : N -> option N;
  (** [sys.get_int_max_str_digits()] *)
  max_str_digits : nat
}.

(** ** Python builtins used by the module

    A [str] that comes from the environment is kept as the bytes that the
    environment holds. Python reads them as UTF-8, a byte that cannot be
    decoded becoming a lone surrogate ([surrogateescape]); [int] and [float]
    work on the decoded characters. The literals of the source are ASCII. *)

Module Py.

Section Builtins.

Context {I : Interpreter}.

Definition code (c : ascii) : N := N_of_ascii c.

(** An ASCII digit. [int] and [float] look for these after [transform] has
    put the ASCII digit in the place of every other decimal digit. *)
Definition is_digit (c : ascii) : bool :=
  ((48 <=? code c) && (code c <=? 57))%N.

(** [Py_ISSPACE], the white space that [int] and [float] skip at both ends:
    tab, line feed, vertical tab, form feed, carriage return and space. *)
Definition is_space (c : ascii) : bool :=
  ((9 <=? code c) && (code c <=? 13) || (code c =? 32))%N.

Definition is_underscore (c : ascii) : bool := (code c =? 95)%N.

Definition digit_value (c : ascii) : Z := Z.of_N (code c) - 48.

Fixpoint lstrip (cs : list ascii) : list ascii :=
  match cs with
  | c :: cs' => if is_space c then lstrip cs' else cs
  | [] => []
  end.

Definition strip (cs : list ascii) : list ascii :=
  rev (lstrip (rev (lstrip cs))).

(** [+] or [-] in front: the flag is true for a minus sign. *)
Definition take_sign (cs : list ascii) : bool * list ascii :=
  match cs with
  | "-"%char :: cs' => (true, cs')
  | "+"%char :: cs' => (false, cs')
  | _ => (false, cs)
  end.

(** Value of a run of decimal digits, most significant first. *)
Definition digits_value (ds : list ascii) : Z :=
  fold_left (fun acc d => 10 * acc + digit_value d) ds 0.

(** Underscores are allowed only between two digits; [prev] is the
    character before [cs] (NUL at the start). *)
Fixpoint underscores_ok (prev : ascii) (cs : list ascii) : bool :=
  match cs with
  | [] => negb (is_underscore prev)
  | c :: cs' =>
      (if is_underscore c then is_digit prev
       else negb (is_underscore prev) || is_digit c)
      && underscores_ok c cs'
  end.

Definition drop_underscores (cs : list ascii) : list ascii :=
  List.filter (fun c => negb (is_underscore c)) cs.

(** *** Reading the bytes of the environment as characters *)

(** A continuation byte, 0x80..0xBF. *)
Definition is_cont (b : ascii) : bool :=
  ((128 <=? code b) && (code b <=? 191))%N.

Definition low6 (b : ascii) : N := (code b - 128)%N.

(** The lone surrogate U+DC80..U+DCFF that stands for an undecodable byte. *)
Definition escape (b : ascii) : N := (56320 + code b)%N.

Definition two_value (b1 b2 : ascii) : N :=
  ((code b1 - 192) * 64 + low6 b2)%N.

Definition three_value (b1 b2 b3 : ascii) : N :=
  ((code b1 - 224) * 4096 + low6 b2 * 64 + low6 b3)%N.

Definition four_value (b1 b2 b3 b4 : ascii) : N :=
  ((code b1 - 240) * 262144 + low6 b2 * 4096 + low6 b3 * 64 + low6 b4)%N.

(** A sequence of two bytes for U+0080..U+07FF. *)
Definition two_ok (b1 b2 : ascii) : bool :=
  (is_cont b2 && (194 <=? code b1) && (code b1 <=? 223))%N.

(** A sequence of three bytes for U+0800..U+FFFF, the surrogates
    U+D800..U+DFFF left out. *)
Definition three_ok (b1 b2 b3 : ascii) : bool :=
  (is_cont b2 && is_cont b3 && (224 <=? code b1) && (code b1 <=? 239)
   && (2048 <=? three_value b1 b2 b3)
   && negb ((55296 <=? three_value b1 b2 b3)
            && (three_value b1 b2 b3 <=? 57343)))%N.

(** A sequence of four bytes for U+10000..U+10FFFF. *)
Definition four_ok (b1 b2 b3 b4 : ascii) : bool :=
  (is_cont b2 && is_cont b3 && is_cont b4
   && (240 <=? code b1) && (code b1 <=? 244)
   && (65536 <=? four_value b1 b2 b3 b4)
   && (four_value b1 b2 b3 b4 <=? 1114111))%N.

(** UTF-8 with [surrogateescape]: a well-formed sequence gives its
    character; otherwise the first byte is escaped and decoding goes on
    with the next byte. *)
Fixpoint decode (bs : list ascii) : list N :=
  match bs with
  | [] => []
  | b1 :: r1 =>
      if (code b1 <? 128)%N then code b1 :: decode r1
      else
        match r1 with
        | b2 :: r2 =>
            if two_ok b1 b2 then two_value b1 b2 :: decode r2
            else
              match r2 with
              | b3 :: r3 =>
                  if three_ok b1 b2 b3
                  then three_value b1 b2 b3 :: decode r3
                  else
                    match r3 with
                    | b4 :: r4 =>
                        if four_ok b1 b2 b3 b4
                        then four_value b1 b2 b3 b4 :: decode r4
                        else escape b1 :: decode r1
                    | [] => escape b1 :: decode r1
                    end
              | [] => escape b1 :: decode r1
              end
        | [] => escape b1 :: decode r1
        end
  end.

(** What [int] and [float] do to a string that is not all ASCII before they
    read it: a character below 127 stays, any other white space becomes a
    space and any other decimal digit the ASCII digit of its value; the
    first character that is neither becomes a question mark, and the string
    ends there. *)
Fixpoint transform (cps : list N) : list ascii :=
  match cps with
  | [] => []
  | cp :: rest =>
      if (cp <? 127)%N then ascii_of_N cp :: transform rest
      else if unicode_space cp then " "%char :: transform rest
      else
        match unicode_decimal cp with
        | Some d => ascii_of_N (48 + d) :: transform rest
        | None => ["?"%char]
        end
  end.

(** A string that is all ASCII is read as it is. *)
Definition to_ascii (cps : list N) : list ascii :=
  if forallb (fun cp => (cp <? 128)%N) cps
  then map ascii_of_N cps
  else transform cps.

Definition chars_of (s : string) : list ascii :=
  to_ascii (decode (list_ascii_of_string s)).

(** *** [int(s)] for a string, base 10 *)

(** Literals of at most this many digits are never checked against the
    limit. *)
Definition max_str_digits_threshold : nat := 640.

(** White space is stripped, then comes an optional sign and a run of
    digits in which single underscores may separate digits. *)
Definition int_of_chars (cs : list ascii) : option Z :=
  let '(neg, body) := take_sign (strip cs) in
  let ds := drop_underscores body in
  if negb (underscores_ok zero body) then None
  else if negb (forallb is_digit ds) then None
  else match ds with
       | [] => None
       | _ :: _ =>
           if ((max_str_digits_threshold <? length ds)
               && (0 <? max_str_digits)
               && (max_str_digits <? length ds))%nat then None
           else Some (if neg then - digits_value ds else digits_value ds)
       end.

Definition int_ (s : string) : option Z := int_of_chars (chars_of s).

(** *** [str.lower] *)

Definition lower_char (c : ascii) : ascii :=
  if ((65 <=? code c) && (code c <=? 90))%N
  then ascii_of_N (code c + 32) else c.

Fixpoint lower (s : string) : string :=
  match s with
  | EmptyString => EmptyString
  | String c s' => String (lower_char c) (lower s')
  end.

(** *** [float(s)] for a string

    The result is an IEEE 754 binary64 value, kept as a [spec_float] with
    precision 53 and maximal exponent 1024. A decimal literal [m * 10^e] is
    rounded to nearest, ties to even; a magnitude too large becomes an
    infinity and one too small a zero, as [float] does. *)

Definition float : Type := spec_float.

Definition prec : Z := 53.
Definition emax : Z := 1024.

Definition lower_chars (cs : list ascii) : list ascii := map lower_char cs.

(** [inf], [infinity] and [nan] in any case. *)
Definition inf_or_nan (neg : bool) (cs : list ascii) : option float :=
  let l := string_of_list_ascii (lower_chars cs) in
  if String.eqb l "inf" || String.eqb l "infinity" then Some (S754_infinity neg)
  else if String.eqb l "nan" then Some S754_nan
  else None.

(** Longest prefix of digits, and what follows it. *)
Fixpoint span_digits (cs : list ascii) : list ascii * list ascii :=
  match cs with
  | c :: cs' =>
      if is_digit c
      then let '(ds, rest) := span_digits cs' in (c :: ds, rest)
      else ([], cs)
  | [] => ([], [])
  end.

(** Exponent part: nothing, or [e] or [E], an optional sign and at least
    one digit, up to the end of the string. *)
Definition exponent_of (cs : list ascii) : option Z :=
  match cs with
  | [] => Some 0
  | c :: cs' =>
      if (code c =? 101)%N || (code c =? 69)%N then
        let '(neg, body) := take_sign cs' in
        match span_digits body with
        | ((_ :: _) as ds, []) =>
            Some (if neg then - digits_value ds else digits_value ds)
        | _ => None
        end
      else None
  end.

(** The nearest binary64 value to [(-1)^neg * m * 10^e]. *)
Definition round_decimal (neg : bool) (m e : Z) : float :=
  match m with
  | Zpos p =>
      match e with
      | Zneg k =>
          SFdiv prec emax (S754_finite neg p 0)
                (S754_finite false (Pos.pow 10 k) 0)
      | _ =>
          binary_normalize prec emax
            (if neg then - (m * 10 ^ e) else m * 10 ^ e) 0 neg
      end
  | _ => S754_zero neg
  end.

(** Digits, an optional point and more digits (at least one digit in all),
    then the exponent part. *)
Definition decimal_of (neg : bool) (cs : list ascii) : option float :=
  let '(ip, rest) := span_digits cs in
  let '(fp, rest') :=
    match rest with
    | "."%char :: r => span_digits r
    | _ => ([], rest)
    end in
  match (ip ++ fp)%list with
  | [] => None
  | _ :: _ =>
      match exponent_of rest' with
      | Some e =>
          Some (round_decimal neg (digits_value (ip ++ fp)%list)
                  (e - Z.of_nat (length fp)))
      | None => None
      end
  end.

Definition float_of_chars (cs : list ascii) : option float :=
  let s := strip cs in
  if negb (underscores_ok zero s) then None
  else
    let '(neg, body) := take_sign (drop_underscores s) in
    match inf_or_nan neg body with
    | Some f => Some f
    | None => decimal_of neg body
    end.

Definition float_ (s : string) : option float := float_of_chars (chars_of s).

(** *** [pathlib.Path(s)] on a POSIX system

    A path is its root ([""], ["/"], or ["//"] for exactly two leading
    slashes) and its components; empty components and ["."] are dropped
    when the path is built, so two spellings of one path are equal. *)

Record Path : Type := MkPath { root : string; parts : list string }.

Fixpoint split_slash (cur : string) (s : string) : list string :=
  match s with
  | EmptyString => [String.rev cur]
  | String c s' =>
      if Ascii.eqb c "/" then String.rev cur :: split_slash "" s'
      else split_slash (String c cur) s'
  end.

Definition splitroot (s : string) : string * string :=
  match s with
  | String "/" r =>
      match r with
      | String "/" r' =>
          match r' with
          | String "/" _ => ("/", r)
          | _ => ("//", r')
          end
      | _ => ("/", r)
      end
  | _ => ("", s)
  end.

Definition keep_part (x : string) : bool :=
  negb (String.eqb x "") && negb (String.eqb x ".").

Definition Path_ (s : string) : Path :=
  let '(rt, rel) := splitroot s in
  MkPath rt (List.filter keep_part (split_slash "" rel)).

End Builtins.

End Py.

(** ** An interpreter started without options

    The tables are those of Unicode 14.0, with which CPython 3.11 is built;
    the digit limit is the one the interpreter has when neither
    [PYTHONINTMAXSTRDIGITS] nor [-X int_max_str_digits] is given. *)

(** The characters for which [str.isspace] holds. *)
Definition space_table : list N :=
  ([ 9; 10; 11; 12; 13; 28; 29; 30; 31; 32; 133; 160; 5760; 8192; 8193;
    8194; 8195; 8196; 8197; 8198; 8199; 8200; 8201; 8202; 8232; 8233; 8239;
    8287; 12288 ])%N.

(** The digit zero of each run of ten decimal digits; ASCII [0] comes
    first. *)
Definition decimal_zeros : list N :=
  ([ 48; 1632; 1776; 1984; 2406; 2534; 2662; 2790; 2918; 3046; 3174; 3302;
    3430; 3558; 3664; 3792; 3872; 4160; 4240; 6112; 6160; 6470; 6608; 6784;
    6800; 6992; 7088; 7232; 7248; 42528; 43216; 43264; 43472; 43504; 43600;
    44016; 65296; 66720; 68912; 69734; 69872; 69942; 70096; 70384; 70736;
    70864; 71248; 71360; 71472; 71904; 72016; 72784; 73040; 73120; 92768;
    92864; 93008; 120782; 120792; 120802; 120812; 120822; 123200; 123632;
    125264; 130032 ])%N.

Definition cpython : Interpreter :=
  {| unicode_space := fun cp => existsb (N.eqb cp) space_table;
     unicode_decimal := fun cp =>
       match List.find (fun z => (z <=? cp) && (cp <? z + 10))%N decimal_zeros with
       | Some z => Some (cp - z)%N
       | None => None
       end;
     max_str_digits := 4300 |}.

(** The same interpreter started with [PYTHONINTMAXSTRDIGITS=0]. *)
Definition cpython_no_limit : Interpreter :=
  {| unicode_space := unicode_space (Interpreter := cpython);
     unicode_decimal := unicode_decimal (Interpreter := cpython);
     max_str_digits := 0 |}.

(** A token limit of 4301 digits. *)
Definition env_long_tokens : gmap string string :=
  {[ "OPENAI_API_KEY" := "sk-live";
     "MAX_TOKENS" := string_of_list_ascii (repeat "1"%char 4301) ]}.

(** ** Exceptions and the result of code that may raise *)

Inductive exn : Type :=
| ValueError (msg : string)
    (** [raise ValueError(msg)] inside a validator *)
| IntError (arg : string)
    (** the [ValueError] of [int(arg)] *)
| FloatError (arg : string)
    (** the [ValueError] of [float(arg)] *)
| ValidationError (model loc msg : string).
    (** pydantic's error for field [loc] of [model], carrying the
        validator's message *)

Inductive result (A : Type) : Type :=
| Ok (a : A)
| Raise (e : exn).

Arguments Ok {A} a.
Arguments Raise {A} e.

Definition bind {A B : Type} (r : result A) (k : A -> result B) : result B :=
  match r with
  | Ok a => k a
  | Raise e => Raise e
  end.

Notation "'let*' x ':=' r 'in' k" := (bind r (fun x => k))
  (at level 10, x name, r at level 100, k at level 200).

Definition raises {A : Type} (r : result A) : Prop := exists e, r = Raise e.

(** ** Merging the local environment file *)

Module Dotenv.

(** The bindings of the file, in file order; [None] is a name written
    without a value. A later binding of a name replaces an earlier one. *)
Definition dict_of (bindings : list (string * option string))
  : gmap string (option string) :=
  fold_left (fun d kv => <[kv.1 := kv.2]> d) bindings ∅.

(** One binding is put into the environment only when the environment has
    no variable of that name and the binding has a value. *)
Definition set_variable (k : string) (v : option string)
    (environ : gmap string string) : gmap string string :=
  match environ !! k with
  | Some _ => environ
  | None =>
      match v with
      | Some s => <[k := s]> environ
      | None => environ
      end
  end.

(** Modelled from the spec: [load_dotenv] is the function of the
    python-dotenv package, which is not part of the repository; the module
    calls it without arguments. The spec describes it as merging the
    variables of an optional local file into the process environment without
    replacing a variable that is already set. [file] is [None] when there is
    no file. *)
Definition load_dotenv (file : option (list (string * option string)))
    (environ : gmap string string) : gmap string string :=
  match file with
  | None => environ
  | Some bindings => map_fold set_variable environ (dict_of bindings)
  end.

End Dotenv.

(** ** The loader

    Everything below holds for every interpreter: whatever its Unicode
    tables and its digit limit are. *)

Section Loader.

Context {I : Interpreter}.

Definition int_call (s : string) : result Z :=
  match Py.int_ s with
  | Some z => Ok z
  | None => Raise (IntError s)
  end.

Definition float_call (s : string) : result Py.float :=
  match Py.float_ s with
  | Some f => Ok f
  | None => Raise (FloatError s)
  end.

(** A validator's [ValueError] becomes the model's [ValidationError]. *)
Definition validated {A : Type} (model loc : string) (r : result A) : result A :=
  match r with
  | Raise (ValueError msg) => Raise (ValidationError model loc msg)
  | _ => r
  end.

(** ** The process environment *)

(** [os.getenv(key, default)] *)
Definition getenv (environ : gmap string string) (key dflt : string) : string :=
  default dflt (environ !! key).

(** ** The four settings models and the aggregate *)

Record OpenAIConfig : Type := {
  api_key : string;
  model : string;
  temperature : Py.float;
  max_tokens : Z
}.

Record AgentConfig : Type := {
  max_iterations : Z;
  max_execution_time : Z;
  verbose : bool
}.

Record MemoryConfig : Type := {
  memory_type : string;
  collection_name : string;
  persist_directory : Py.Path
}.

Record CostConfig : Type := {
  max_cost_per_request : Py.float;
  enable_cost_tracking : bool
}.

Record Config : Type := {
  openai : OpenAIConfig;
  agent : AgentConfig;
  memory : MemoryConfig;
  cost : CostConfig
}.

Definition sentinel : string := "your_openai_api_key_here".

Definition validate_api_key (v : string) : result string :=
  if String.eqb v "" || String.eqb v sentinel
  then Raise (ValueError "Valid OpenAI API key required")
  else Ok v.

Definition validate_iterations (v : Z) : result Z :=
  if (v <? 1) || (50 <? v)
  then Raise (ValueError "Max iterations must be between 1 and 50")
  else Ok v.

(** [OpenAIConfig(api_key=.., model=.., temperature=.., max_tokens=..)]
    with arguments that already have the declared types. *)
Definition OpenAIConfig_init (k m : string) (t : Py.float) (n : Z)
  : result OpenAIConfig :=
  let* k' := validated "OpenAIConfig" "api_key" (validate_api_key k) in
  Ok {| api_key := k'; model := m; temperature := t; max_tokens := n |}.

Definition AgentConfig_init (i t : Z) (v : bool) : result AgentConfig :=
  let* i' := validated "AgentConfig" "max_iterations" (validate_iterations i) in
  Ok {| max_iterations := i'; max_execution_time := t; verbose := v |}.

Definition MemoryConfig_init (ty c : string) (d : Py.Path) : result MemoryConfig :=
  Ok {| memory_type := ty; collection_name := c; persist_directory := d |}.

Definition CostConfig_init (m : Py.float) (e : bool) : result CostConfig :=
  Ok {| max_cost_per_request := m; enable_cost_tracking := e |}.

(** [os.getenv(key, 'true').lower() == 'true'] *)
Definition flag (environ : gmap string string) (key : string) : bool :=
  String.eqb (Py.lower (getenv environ key "true")) "true".

(** ** The body of [class Config]

    The four field defaults are evaluated in order when the class statement
    runs; within one call the arguments are evaluated left to right before
    the model validates them. *)

Definition openai_default (environ : gmap string string) : result OpenAIConfig :=
  let k := getenv environ "OPENAI_API_KEY" sentinel in
  let m := getenv environ "OPENAI_MODEL" "gpt-4-turbo-preview" in
  let* t := float_call (getenv environ "OPENAI_TEMPERATURE" "0.0") in
  let* n := int_call (getenv environ "MAX_TOKENS" "4096") in
  OpenAIConfig_init k m t n.

Definition agent_default (environ : gmap string string) : result AgentConfig :=
  let* i := int_call (getenv environ "AGENT_MAX_ITERATIONS" "10") in
  let* t := int_call (getenv environ "AGENT_MAX_EXECUTION_TIME" "300") in
  AgentConfig_init i t (flag environ "AGENT_VERBOSE").

Definition memory_default (environ : gmap string string) : result MemoryConfig :=
  MemoryConfig_init
    (getenv environ "MEMORY_TYPE" "chromadb")
    (getenv environ "MEMORY_COLLECTION_NAME" "agent_memory")
    (Py.Path_ (getenv environ "MEMORY_PERSIST_DIRECTORY" "./data/memory")).

Definition cost_default (environ : gmap string string) : result CostConfig :=
  let* m := float_call (getenv environ "MAX_COST_PER_REQUEST" "1.00") in
  CostConfig_init m (flag environ "ENABLE_COST_TRACKING").

Definition class_Config (environ : gmap string string) : result Config :=
  let* o := openai_default environ in
  let* a := agent_default environ in
  let* m := memory_default environ in
  let* c := cost_default environ in
  Ok {| openai := o; agent := a; memory := m; cost := c |}.

(** ** The running process

    [os_environ] is the process environment, [Config_defaults] the field
    defaults stored in [class Config] when the class statement ran, and
    [heap] the aggregates created so far, in order of creation: a reference
    to an aggregate is its index. The module global [config] is the first
    one. *)

Record process : Type := {
  os_environ : gmap string string;
  Config_defaults : Config;
  heap : list Config
}.

(** [Config.load()], that is [cls()]: no argument is passed, so every field
    of the new aggregate is a copy of the class default. *)
Definition Config_load (p : process) : nat * process :=
  (length (heap p),
   {| os_environ := os_environ p;
      Config_defaults := Config_defaults p;
      heap := heap p ++ [Config_defaults p] |}).

(** The aggregate that a call of [Config.load()] in state [p] returns. *)
Definition loaded (p : process) : option Config :=
  let '(r, p') := Config_load p in heap p' !! r.

(** Reference held by the module global [config]. *)
Definition config : nat := 0%nat.

(** Running the module from the class statements on, in environment
    [environ]: the class body, then [config = Config.load()]. *)
Definition startup (environ : gmap string string) : result process :=
  let* d := class_Config environ in
  Ok (Config_load
        {| os_environ := environ; Config_defaults := d; heap := [] |}).2.

(** Importing the module: [load_dotenv()] first, then the rest. *)
Definition import_module (file : option (list (string * option string)))
    (environ : gmap string string) : result process :=
  startup (Dotenv.load_dotenv file environ).

(** What happens in the process after the import: calls of the loader, and
    changes of the environment made by other code. *)
Inductive action : Type :=
| Load
| Putenv (k v : string)
| Unsetenv (k : string).

Definition step (p : process) (a : action) : process :=
  match a with
  | Load => (Config_load p).2
  | Putenv k v =>
      {| os_environ := <[k := v]> (os_environ p);
         Config_defaults := Config_defaults p;
         heap := heap p |}
  | Unsetenv k =>
      {| os_environ := delete k (os_environ p);
         Config_defaults := Config_defaults p;
         heap := heap p |}
  end.

Definition run (p : process) (acts : list action) : process :=
  fold_left step acts p.

(** ** What the claims speak about *)


(** The iteration count, from the variable or its default, is an integer
    between 1 and 50. *)
Definition iterations_in_range (e : gmap string string) : Prop :=
  exists v, Py.int_ (getenv e "AGENT_MAX_ITERATIONS" "10") = Some v /\ 1 <= v <= 50.


(** The four other numeric variables, from the environment or the default,
    have the syntax of their type. *)
Definition numbers_parse (e : gmap string string) : Prop :=
  is_Some (Py.float_ (getenv e "OPENAI_TEMPERATURE" "0.0")) /\
  is_Some (Py.int_ (getenv e "MAX_TOKENS" "4096")) /\
  is_Some (Py.int_ (getenv e "AGENT_MAX_EXECUTION_TIME" "300")) /\
  is_Some (Py.float_ (getenv e "MAX_COST_PER_REQUEST" "1.00")).

(** Every field of [c] is the value of its variable in [e], or of the
    literal default when the variable is not set, coerced to the field's
    type. *)
Definition derived_from (e : gmap string string) (c : Config) : Prop :=
  api_key (openai c) = getenv e "OPENAI_API_KEY" sentinel /\
  model (openai c) = getenv e "OPENAI_MODEL" "gpt-4-turbo-preview" /\
  Py.float_ (getenv e "OPENAI_TEMPERATURE" "0.0") = Some (temperature (openai c)) /\
  Py.int_ (getenv e "MAX_TOKENS" "4096") = Some (max_tokens (openai c)) /\
  Py.int_ (getenv e "AGENT_MAX_ITERATIONS" "10") = Some (max_iterations (agent c)) /\
  Py.int_ (getenv e "AGENT_MAX_EXECUTION_TIME" "300")
    = Some (max_execution_time (agent c)) /\
  verbose (agent c)
    = String.eqb (Py.lower (getenv e "AGENT_VERBOSE" "true")) "true" /\
  memory_type (memory c) = getenv e "MEMORY_TYPE" "chromadb" /\
  collection_name (memory c) = getenv e "MEMORY_COLLECTION_NAME" "agent_memory" /\
  persist_directory (memory c)
    = Py.Path_ (getenv e "MEMORY_PERSIST_DIRECTORY" "./data/memory") /\
  Py.float_ (getenv e "MAX_COST_PER_REQUEST" "1.00")
    = Some (max_cost_per_request (cost c)) /\
  enable_cost_tracking (cost c)
    = String.eqb (Py.lower (getenv e "ENABLE_COST_TRACKING" "true")) "true".


Definition iterations_error : exn :=
  ValidationError "AgentConfig" "max_iterations"
    "Max iterations must be between 1 and 50".


(** ** Sample environments *)

Definition env_key_only : gmap string string :=
  {[ "OPENAI_API_KEY" := "sk-live" ]}.






(** The floating-point values [0.0] and [1.0]. *)
Definition float_zero : Py.float := S754_zero false.
Definition float_one : Py.float := S754_finite false 4503599627370496 (-52).

(** A spelling of [true] in any mix of upper and lower case. *)
Definition true_variant (s : string) : Prop :=
  exists c1 c2 c3 c4 : ascii,
    s = String c1 (String c2 (String c3 (String c4 EmptyString))) /\
    (c1 = "t" \/ c1 = "T")%char /\ (c2 = "r" \/ c2 = "R")%char /\
    (c3 = "u" \/ c3 = "U")%char /\ (c4 = "e" \/ c4 = "E")%char.

Definition env_changes : list action :=
  [Putenv "OPENAI_MODEL" "gpt-3.5-turbo"; Load; Unsetenv "OPENAI_API_KEY";
   Putenv "AGENT_MAX_ITERATIONS" "99"].

(** The aggregate and the process that [env_key_only] gives. *)
Definition Config_key_only : Config :=
  {| openai := {| api_key := "sk-live"; model := "gpt-4-turbo-preview";
                  temperature := float_zero; max_tokens := 4096 |};
     agent := {| max_iterations := 10; max_execution_time := 300;
                 verbose := true |};
     memory := {| memory_type := "chromadb";
                  collection_name := "agent_memory";
                  persist_directory := Py.MkPath "" ["data"; "memory"] |};
     cost := {| max_cost_per_request := float_one;
                enable_cost_tracking := true |} |}.

Definition process_key_only : process :=
  {| os_environ := env_key_only;
     Config_defaults := Config_key_only;
     heap := [Config_key_only] |}.

(** ** Further notions *)


(** The module starts in environment [e] and the loader returns [c]. *)
Definition loads (e : gmap string string) (c : Config) : Prop :=
  exists p, startup e = Ok p /\ loaded p = Some c.

Definition is_Load (a : action) : bool :=
  match a with
  | Load => true
  | _ => false
  end.

(** A string of the white space that [int] and [float] skip among the ASCII
    characters: tab, line feed, vertical tab, form feed, carriage return and
    space. *)
Definition all_space (s : string) : Prop :=
  forallb Py.is_space (list_ascii_of_string s) = true.

(** A path written from the current directory, not from the root. *)
Definition relative (s : string) : Prop :=
  match s with
  | String c _ => c <> "/"%char
  | EmptyString => True
  end.




Definition env_empty_model : gmap string string :=
  <["OPENAI_MODEL" := ""]> env_key_only.

Definition file_with_key : option (list (string * option string)) :=
  Some [("OPENAI_API_KEY", Some "sk-file"); ("OPENAI_MODEL", None)].

Definition Config_from_file : Config :=
  {| openai := {| api_key := "sk-file"; model := "gpt-4-turbo-preview";
                  temperature := float_zero; max_tokens := 4096 |};
     agent := agent Config_key_only; memory := memory Config_key_only;
     cost := cost Config_key_only |}.



(** ** Basic facts *)


Lemma getenv_unset (e : gmap string string) k d :
  e !! k = None -> getenv e k d = d.
Proof. intros H. unfold getenv. by rewrite H. Qed.

Lemma getenv_insert_ne (e : gmap string string) k k' d v :
  k <> k' -> getenv (<[k := v]> e) k' d = getenv e k' d.
Proof. intros H. unfold getenv. by rewrite lookup_insert_ne. Qed.

Lemma getenv_insert_eq (e : gmap string string) k d v :
  getenv (<[k := v]> e) k d = v.
Proof. unfold getenv. by rewrite lookup_insert_eq. Qed.

Lemma int_call_Ok s z : int_call s = Ok z <-> Py.int_ s = Some z.
Proof. unfold int_call. destruct (Py.int_ s); split; congruence. Qed.


Lemma float_call_Ok s f : float_call s = Ok f <-> Py.float_ s = Some f.
Proof. unfold float_call. destruct (Py.float_ s); split; congruence. Qed.


Lemma bind_Ok {A B} (r : result A) (k : A -> result B) b :
  bind r k = Ok b <-> exists a, r = Ok a /\ k a = Ok b.
Proof.
  destruct r as [a | x]; simpl; split.
  - eauto.
  - intros (a' & [= <-] & H). exact H.
  - discriminate.
  - intros (a' & [=] & _).
Qed.





Lemma validate_api_key_Ok k :
  k <> "" -> k <> sentinel -> validate_api_key k = Ok k.
Proof.
  intros H1 H2. unfold validate_api_key.
  apply String.eqb_neq in H1, H2. by rewrite H1, H2.
Qed.


Lemma validate_iterations_Ok v : 1 <= v <= 50 -> validate_iterations v = Ok v.
Proof.
  intros H. unfold validate_iterations.
  destruct (Z.ltb_spec v 1), (Z.ltb_spec 50 v); simpl; (reflexivity || lia).
Qed.

Lemma validate_iterations_Raise v :
  v < 1 \/ 50 < v ->
  validate_iterations v = Raise (ValueError "Max iterations must be between 1 and 50").
Proof.
  intros H. unfold validate_iterations.
  destruct (Z.ltb_spec v 1), (Z.ltb_spec 50 v); simpl; (reflexivity || lia).
Qed.

(** ** The class body *)

Lemma OpenAIConfig_init_Ok k m t n o :
  OpenAIConfig_init k m t n = Ok o <->
  k <> "" /\ k <> sentinel /\
  o = {| api_key := k; model := m; temperature := t; max_tokens := n |}.
Proof.
  unfold OpenAIConfig_init, validate_api_key.
  destruct (String.eqb_spec k ""), (String.eqb_spec k sentinel); simpl;
    split; try discriminate; try (intros (? & ? & ?); contradiction).
  - intros [= <-]. auto.
  - intros (_ & _ & ->). reflexivity.
Qed.


Lemma AgentConfig_init_Ok i t v a :
  AgentConfig_init i t v = Ok a <->
  1 <= i <= 50 /\
  a = {| max_iterations := i; max_execution_time := t; verbose := v |}.
Proof.
  unfold AgentConfig_init, validate_iterations.
  destruct (Z.ltb_spec i 1), (Z.ltb_spec 50 i); simpl;
    split; try discriminate; try (intros [? _]; lia).
  - intros [= <-]. split; [lia | reflexivity].
  - intros [_ ->]. reflexivity.
Qed.

Lemma AgentConfig_init_Raise i t v x :
  AgentConfig_init i t v = Raise x <->
  (i < 1 \/ 50 < i) /\ x = iterations_error.
Proof.
  unfold AgentConfig_init, validate_iterations.
  destruct (Z.ltb_spec i 1), (Z.ltb_spec 50 i); simpl;
    split; try discriminate; try (intros [= <-]; split; [lia | reflexivity]);
    try (intros [_ ->]; reflexivity).
  intros [? _]; lia.
Qed.

Lemma class_Config_Ok_inv e d :
  class_Config e = Ok d ->
  derived_from e d /\
  getenv e "OPENAI_API_KEY" sentinel <> "" /\
  getenv e "OPENAI_API_KEY" sentinel <> sentinel /\
  1 <= max_iterations (agent d) <= 50.
Proof.
  unfold class_Config, openai_default, agent_default, memory_default,
    cost_default, MemoryConfig_init, CostConfig_init, flag.
  intros H.
  apply bind_Ok in H as (o & Ho & H).
  apply bind_Ok in Ho as (t & Ht & Ho).
  apply bind_Ok in Ho as (n & Hn & Ho).
  apply OpenAIConfig_init_Ok in Ho as (Hk1 & Hk2 & ->).
  apply bind_Ok in H as (a & Ha & H).
  apply bind_Ok in Ha as (i & Hi & Ha).
  apply bind_Ok in Ha as (x & Hx & Ha).
  apply AgentConfig_init_Ok in Ha as (Hr & ->).
  apply bind_Ok in H as (m & [= <-] & H).
  apply bind_Ok in H as (c & Hc & [= <-]).
  apply bind_Ok in Hc as (mc & Hmc & [= <-]).
  apply float_call_Ok in Ht, Hmc. apply int_call_Ok in Hn, Hi, Hx.
  unfold derived_from; simpl. repeat split; auto; lia.
Qed.

Lemma class_Config_Ok_intro e :
  getenv e "OPENAI_API_KEY" sentinel <> "" ->
  getenv e "OPENAI_API_KEY" sentinel <> sentinel ->
  iterations_in_range e ->
  numbers_parse e ->
  exists d, class_Config e = Ok d.
Proof.
  intros Hk1 Hk2 (i & Hi & Hr) ([t Ht] & [n Hn] & [x Hx] & [mc Hmc]).
  unfold class_Config, openai_default, agent_default, memory_default,
    cost_default, MemoryConfig_init, CostConfig_init.
  apply float_call_Ok in Ht, Hmc. apply int_call_Ok in Hn, Hi, Hx.
  rewrite Ht, Hn, Hi, Hx, Hmc. simpl.
  unfold OpenAIConfig_init, AgentConfig_init.
  rewrite (validate_api_key_Ok _ Hk1 Hk2), (validate_iterations_Ok _ Hr).
  simpl. eauto.
Qed.

(** ** The process *)

Lemma startup_Ok e p :
  startup e = Ok p <->
  exists d, class_Config e = Ok d /\
    p = {| os_environ := e; Config_defaults := d; heap := [d] |}.
Proof.
  unfold startup. destruct (class_Config e) as [d | x]; simpl; split.
  - intros [= <-]. eauto.
  - intros (d' & [= <-] & ->). reflexivity.
  - discriminate.
  - intros (d' & [=] & _).
Qed.

Lemma startup_Raise e x : startup e = Raise x <-> class_Config e = Raise x.
Proof.
  unfold startup. destruct (class_Config e) as [d | y]; simpl; split;
    congruence.
Qed.

Lemma loaded_defaults p : loaded p = Some (Config_defaults p).
Proof.
  unfold loaded, Config_load. simpl. by apply list_lookup_middle.
Qed.

Lemma step_defaults p a : Config_defaults (step p a) = Config_defaults p.
Proof. by destruct a. Qed.

Lemma run_defaults p acts : Config_defaults (run p acts) = Config_defaults p.
Proof.
  revert p. induction acts as [| a acts IH]; intros p; simpl; [done |].
  change (Config_defaults (run (step p a) acts) = Config_defaults p).
  by rewrite IH, step_defaults.
Qed.

Lemma step_heap_stable p a r (c : Config) :
  heap p !! r = Some c -> heap (step p a) !! r = Some c.
Proof.
  intros H. destruct a; simpl; [| done | done].
  by apply lookup_app_l_Some.
Qed.

Lemma run_heap_stable p acts r (c : Config) :
  heap p !! r = Some c -> heap (run p acts) !! r = Some c.
Proof.
  revert p. induction acts as [| a acts IH]; intros p H; simpl; [done |].
  change (heap (run (step p a) acts) !! r = Some c).
  apply IH. by apply step_heap_stable.
Qed.

(** ** Loading a valid snapshot *)


(** ** A missing credential *)


(** ** The iteration count *)

(** C3: constructing the agent settings from an iteration count [v] (already
    an integer) fails exactly when [v] is outside [1,50], and then with the
    message that the count must be between 1 and 50; 0, 51 and every
    negative count fail, 1, 50 and every count between them succeed and are
    stored unchanged. *)
Theorem iteration_count_range (v t : Z) (b : bool) :
  (raises (AgentConfig_init v t b) <-> v < 1 \/ 50 < v) /\
  (AgentConfig_init v t b = Raise iterations_error <-> v < 1 \/ 50 < v) /\
  (AgentConfig_init v t b
     = Ok {| max_iterations := v; max_execution_time := t; verbose := b |}
   <-> 1 <= v <= 50) /\
  AgentConfig_init 0 t b = Raise iterations_error /\
  AgentConfig_init 51 t b = Raise iterations_error /\
  (v < 0 -> AgentConfig_init v t b = Raise iterations_error) /\
  AgentConfig_init 1 t b
    = Ok {| max_iterations := 1; max_execution_time := t; verbose := b |} /\
  AgentConfig_init 50 t b
    = Ok {| max_iterations := 50; max_execution_time := t; verbose := b |}.
Proof.
  assert (HR : forall i, AgentConfig_init i t b = Raise iterations_error
                         <-> i < 1 \/ 50 < i).
  { intros i. rewrite AgentConfig_init_Raise. tauto. }
  assert (HO : forall i, AgentConfig_init i t b
      = Ok {| max_iterations := i; max_execution_time := t; verbose := b |}
      <-> 1 <= i <= 50).
  { intros i. rewrite AgentConfig_init_Ok. tauto. }
  split; [| split; [apply HR | split; [apply HO |]]].
  - split.
    + intros [x Hx]. apply AgentConfig_init_Raise in Hx. tauto.
    + intros H. exists iterations_error. by apply HR.
  - repeat split; try (apply HR; lia); try (apply HO; lia).
    intros H. apply HR. lia.
Qed.

(** The same at the level of the module: when the credential settings are
    built and the execution time and the cost limit are numbers, the module
    fails exactly when the coerced count is outside [1,50]. *)
Lemma startup_iteration_count (e : gmap string string) (v : Z) :
  is_Some (Py.int_ (getenv e "AGENT_MAX_EXECUTION_TIME" "300")) ->
  Py.int_ (getenv e "AGENT_MAX_ITERATIONS" "10") = Some v ->
  (exists o, openai_default e = Ok o) ->
  (exists c, cost_default e = Ok c) ->
  (v < 1 \/ 50 < v -> startup e = Raise iterations_error) /\
  (1 <= v <= 50 ->
   exists p d, startup e = Ok p /\ loaded p = Some d /\
     max_iterations (agent d) = v).
Proof.
  intros [t Ht] Hv [o Ho] [c Hc]. split; intros Hr.
  - apply startup_Raise. unfold class_Config, agent_default.
    apply int_call_Ok in Ht, Hv. rewrite Ho, Hv, Ht. simpl.
    assert (H : AgentConfig_init v t (flag e "AGENT_VERBOSE")
                = Raise iterations_error)
      by (apply AgentConfig_init_Raise; auto).
    by rewrite H.
  - assert (H : AgentConfig_init v t (flag e "AGENT_VERBOSE")
        = Ok {| max_iterations := v; max_execution_time := t;
                verbose := flag e "AGENT_VERBOSE" |})
      by (apply AgentConfig_init_Ok; auto).
    eexists _, _. split; [| split; [apply loaded_defaults |]].
    + apply startup_Ok. eexists. split; [| reflexivity].
      unfold class_Config, agent_default, memory_default, MemoryConfig_init.
      apply int_call_Ok in Ht, Hv. rewrite Ho, Hv, Ht. simpl.
      rewrite H, Hc. simpl. reflexivity.
    + reflexivity.
Qed.

(** ** Numeric variables that are not numbers *)


(** ** Defaults *)

(** C5: in every snapshot from which the module starts, each optional
    variable that is not set leaves its field at the literal default: model
    [gpt-4-turbo-preview], temperature 0.0, token limit 4096, iteration
    count 10, execution time 300, verbose true, memory type [chromadb],
    collection [agent_memory], directory [Path('./data/memory')], cost limit
    1.0, cost tracking true. *)
Theorem unset_gives_default (e : gmap string string) (p : process) (c : Config) :
  startup e = Ok p ->
  loaded p = Some c ->
  (e !! "OPENAI_MODEL" = None -> model (openai c) = "gpt-4-turbo-preview") /\
  (e !! "OPENAI_TEMPERATURE" = None -> temperature (openai c) = float_zero) /\
  (e !! "MAX_TOKENS" = None -> max_tokens (openai c) = 4096) /\
  (e !! "AGENT_MAX_ITERATIONS" = None -> max_iterations (agent c) = 10) /\
  (e !! "AGENT_MAX_EXECUTION_TIME" = None ->
   max_execution_time (agent c) = 300) /\
  (e !! "AGENT_VERBOSE" = None -> verbose (agent c) = true) /\
  (e !! "MEMORY_TYPE" = None -> memory_type (memory c) = "chromadb") /\
  (e !! "MEMORY_COLLECTION_NAME" = None ->
   collection_name (memory c) = "agent_memory") /\
  (e !! "MEMORY_PERSIST_DIRECTORY" = None ->
   persist_directory (memory c) = Py.Path_ "./data/memory") /\
  (e !! "MAX_COST_PER_REQUEST" = None ->
   max_cost_per_request (cost c) = float_one) /\
  (e !! "ENABLE_COST_TRACKING" = None -> enable_cost_tracking (cost c) = true).
Proof.
  intros Hs Hl. apply startup_Ok in Hs as (d & Hd & ->).
  rewrite loaded_defaults in Hl. injection Hl as <-. simpl.
  apply class_Config_Ok_inv in Hd
    as ((_ & H1 & H2 & H3 & H4 & H5 & H6 & H7 & H8 & H9 & H10 & H11) & _).
  repeat split; intros Hu; rewrite (getenv_unset _ _ _ Hu) in *;
    try assumption.
  - vm_compute in H2. by injection H2.
  - vm_compute in H3. by injection H3.
  - vm_compute in H4. by injection H4.
  - vm_compute in H5. by injection H5.
  - vm_compute in H10. by injection H10.
Qed.

(** ** Boolean variables *)

Lemma lower_char_t c : Py.lower_char c = "t"%char -> (c = "t" \/ c = "T")%char.
Proof.
  destruct c as [[] [] [] [] [] [] [] []]; vm_compute; intros H;
    try discriminate H; auto.
Qed.

Lemma lower_char_r c : Py.lower_char c = "r"%char -> (c = "r" \/ c = "R")%char.
Proof.
  destruct c as [[] [] [] [] [] [] [] []]; vm_compute; intros H;
    try discriminate H; auto.
Qed.

Lemma lower_char_u c : Py.lower_char c = "u"%char -> (c = "u" \/ c = "U")%char.
Proof.
  destruct c as [[] [] [] [] [] [] [] []]; vm_compute; intros H;
    try discriminate H; auto.
Qed.

Lemma lower_char_e c : Py.lower_char c = "e"%char -> (c = "e" \/ c = "E")%char.
Proof.
  destruct c as [[] [] [] [] [] [] [] []]; vm_compute; intros H;
    try discriminate H; auto.
Qed.

Lemma lower_true_variant s :
  String.eqb (Py.lower s) "true" = true <-> true_variant s.
Proof.
  rewrite String.eqb_eq. split.
  - destruct s as [| c1 [| c2 [| c3 [| c4 [| c5 s]]]]]; simpl;
      intros H; try discriminate H.
    injection H as H1 H2 H3 H4.
    exists c1, c2, c3, c4. split; [reflexivity |].
    auto using lower_char_t, lower_char_r, lower_char_u, lower_char_e.
  - intros (c1 & c2 & c3 & c4 & -> & H1 & H2 & H3 & H4).
    destruct H1 as [-> | ->], H2 as [-> | ->], H3 as [-> | ->],
      H4 as [-> | ->]; reflexivity.
Qed.

(** Setting a variable that only a flag reads keeps the module starting. *)
Lemma startup_insert_flag (e : gmap string string) (k s : string) p :
  k = "AGENT_VERBOSE" \/ k = "ENABLE_COST_TRACKING" ->
  startup e = Ok p ->
  exists p' c', startup (<[k := s]> e) = Ok p' /\ loaded p' = Some c' /\
    derived_from (<[k := s]> e) c'.
Proof.
  intros Hk Hs. apply startup_Ok in Hs as (d & Hd & ->).
  apply class_Config_Ok_inv in Hd
    as ((_ & _ & H2 & H3 & H4 & H5 & _ & _ & _ & _ & H10 & _) & K1 & K2 & K3).
  assert (Hd' : exists d', class_Config (<[k := s]> e) = Ok d').
  { apply class_Config_Ok_intro; unfold iterations_in_range, numbers_parse;
      destruct Hk as [-> | ->]; rewrite ?getenv_insert_ne by done; eauto. }
  destruct Hd' as [d' Hd'].
  exists {| os_environ := <[k := s]> e; Config_defaults := d'; heap := [d'] |}, d'.
  split; [apply startup_Ok; eauto |]. split; [apply loaded_defaults |].
  by apply class_Config_Ok_inv.
Qed.

(** C6: a boolean variable is compared with [true] after lowering its case:
    the flag is true exactly for the spellings of [true] in any case, false
    for every other string, and no value of [AGENT_VERBOSE] or
    [ENABLE_COST_TRACKING] makes a module fail that starts without it. *)
Theorem boolean_coercion (e : gmap string string) (s : string) (p : process) :
  startup e = Ok p ->
  (String.eqb (Py.lower s) "true" = true <-> true_variant s) /\
  (exists p1 c1, startup (<["AGENT_VERBOSE" := s]> e) = Ok p1 /\
     loaded p1 = Some c1 /\
     (verbose (agent c1) = true <-> true_variant s) /\
     (~ true_variant s -> verbose (agent c1) = false)) /\
  (exists p2 c2, startup (<["ENABLE_COST_TRACKING" := s]> e) = Ok p2 /\
     loaded p2 = Some c2 /\
     (enable_cost_tracking (cost c2) = true <-> true_variant s) /\
     (~ true_variant s -> enable_cost_tracking (cost c2) = false)).
Proof.
  intros Hs. split; [apply lower_true_variant |]. split.
  - destruct (startup_insert_flag e "AGENT_VERBOSE" s p) as (p1 & c1 & H1 & H2 & D);
      [auto | exact Hs |].
    exists p1, c1. do 2 (split; [assumption |]).
    destruct D as (_ & _ & _ & _ & _ & _ & Hv & _).
    rewrite getenv_insert_eq in Hv. rewrite Hv, <- lower_true_variant.
    split; [reflexivity | apply not_true_is_false].
  - destruct (startup_insert_flag e "ENABLE_COST_TRACKING" s p)
      as (p2 & c2 & H1 & H2 & D); [auto | exact Hs |].
    exists p2, c2. do 2 (split; [assumption |]).
    destruct D as (_ & _ & _ & _ & _ & _ & _ & _ & _ & _ & _ & Hv).
    rewrite getenv_insert_eq in Hv. rewrite Hv, <- lower_true_variant.
    split; [reflexivity | apply not_true_is_false].
Qed.

(** ** Loading twice *)

(** C7: in a process started from snapshot [e], two calls of the loader, the
    environment being [e] at both, return two distinct aggregates that hold
    the same values, field by field. *)
Theorem load_twice (e : gmap string string) (p : process) :
  startup e = Ok p ->
  let r1 := (Config_load p).1 in
  let p1 := (Config_load p).2 in
  let r2 := (Config_load p1).1 in
  let p2 := (Config_load p1).2 in
  os_environ p = e /\ os_environ p1 = e /\ r1 <> r2 /\
  exists c1 c2, heap p2 !! r1 = Some c1 /\ heap p2 !! r2 = Some c2 /\
    c1 = c2 /\
    openai c1 = openai c2 /\ agent c1 = agent c2 /\
    memory c1 = memory c2 /\ cost c1 = cost c2.
Proof.
  intros Hs. apply startup_Ok in Hs as (d & _ & ->). simpl.
  split; [reflexivity |]. split; [reflexivity |]. split; [lia |].
  exists d, d. repeat split; reflexivity.
Qed.

(** ** The environment file *)

Lemma load_dotenv_lookup bindings (e : gmap string string) k :
  Dotenv.load_dotenv (Some bindings) e !! k
  = match e !! k with
    | Some v => Some v
    | None => Dotenv.dict_of bindings !! k ≫= id
    end.
Proof.
  unfold Dotenv.load_dotenv. revert k.
  apply (map_fold_weak_ind
           (fun (acc : gmap string string) (m : gmap string (option string)) =>
              forall k, acc !! k = match e !! k with
                                   | Some v => Some v
                                   | None => m !! k ≫= id
                                   end)).
  - intros k. rewrite lookup_empty. simpl. by destruct (e !! k).
  - intros i x m r Hi IH k. unfold Dotenv.set_variable.
    destruct (decide (i = k)) as [-> | Hne].
    + rewrite lookup_insert_eq. specialize (IH k). rewrite Hi in IH.
      destruct (r !! k) as [w |] eqn:Er.
      * rewrite Er, IH. by destruct (e !! k).
      * destruct (e !! k); [discriminate IH |].
        destruct x as [v |]; simpl; [by rewrite lookup_insert_eq | exact Er].
    + rewrite (lookup_insert_ne m) by done. rewrite <- IH.
      destruct (r !! i); [done |]. destruct x; [| done].
      by rewrite lookup_insert_ne.
Qed.

(** C8: merging the environment file changes no variable that is already
    set, and a variable that appears was not set before and has the value
    the file gives it. *)
Theorem load_dotenv_additive
    (file : option (list (string * option string)))
    (e : gmap string string) (k : string) :
  (forall v, e !! k = Some v -> Dotenv.load_dotenv file e !! k = Some v) /\
  (forall v, e !! k = None -> Dotenv.load_dotenv file e !! k = Some v ->
     exists bindings, file = Some bindings /\
       Dotenv.dict_of bindings !! k = Some (Some v)).
Proof.
  destruct file as [bindings |].
  - split; intros v H.
    + rewrite load_dotenv_lookup. by rewrite H.
    + rewrite load_dotenv_lookup, H. intros Hl. exists bindings.
      split; [reflexivity |].
      destruct (Dotenv.dict_of bindings !! k) as [[w |] |]; simpl in Hl;
        congruence.
  - simpl. split; intros v H; [exact H | congruence].
Qed.

(** ** After construction *)

(** C9: after the module has started, no later call of the loader and no
    change of the environment alters an aggregate that exists: the global
    [config], and every aggregate a load has returned, keep their value, and
    so does each of their four groups. *)
Theorem aggregates_never_mutated (e : gmap string string) (p : process)
    (before after : list action) (r : nat) (c : Config) :
  startup e = Ok p ->
  heap (run p before) !! r = Some c ->
  heap (run (run p before) after) !! r = Some c /\
  heap (run p before) !! config = heap p !! config /\
  (exists c', heap (run (run p before) after) !! r = Some c' /\
     openai c' = openai c /\ agent c' = agent c /\
     memory c' = memory c /\ cost c' = cost c).
Proof.
  intros Hs Hr.
  assert (H : heap (run (run p before) after) !! r = Some c)
    by (by apply run_heap_stable).
  split; [exact H |]. split.
  - apply startup_Ok in Hs as (d & _ & ->).
    by apply run_heap_stable.
  - exists c. auto.
Qed.

(** C10: the environment is read once, when the class statement runs. Every
    later call of the loader, whatever has been done to the environment in
    between, returns an aggregate equal to the module global [config], whose
    fields come from the snapshot at import; two loads under different
    environments return equal aggregates. *)
Theorem load_ignores_later_environment (e : gmap string string) (p : process)
    (acts acts' : list action) :
  startup e = Ok p ->
  exists d, class_Config e = Ok d /\ derived_from e d /\
    heap (run p acts) !! config = Some d /\
    loaded (run p acts) = Some d /\
    loaded (run p acts') = loaded (run p acts).
Proof.
  intros Hs. apply startup_Ok in Hs as (d & Hd & ->).
  exists d. split; [exact Hd |].
  split; [by apply class_Config_Ok_inv |].
  split; [by apply run_heap_stable |].
  rewrite !loaded_defaults, !run_defaults. auto.
Qed.

(** ** When the module starts, and why it does not *)

Lemma Config_eta (c : Config) o a m k :
  openai c = o -> agent c = a -> memory c = m -> cost c = k ->
  c = {| openai := o; agent := a; memory := m; cost := k |}.
Proof. destruct c. simpl. by intros -> -> -> ->. Qed.

(** The class body returns [c] exactly when [c] holds the coerced values
    and the two validated fields pass. *)
Lemma class_Config_Ok_iff e c :
  class_Config e = Ok c <->
  derived_from e c /\
  getenv e "OPENAI_API_KEY" sentinel <> "" /\
  getenv e "OPENAI_API_KEY" sentinel <> sentinel /\
  1 <= max_iterations (agent c) <= 50.
Proof.
  split; [apply class_Config_Ok_inv |].
  intros ((H0 & H1 & H2 & H3 & H4 & H5 & H6 & H7 & H8 & H9 & H10 & H11)
          & K1 & K2 & K3).
  unfold class_Config, openai_default, agent_default, memory_default,
    cost_default, MemoryConfig_init, CostConfig_init, flag.
  apply float_call_Ok in H2, H10. apply int_call_Ok in H3, H4, H5.
  rewrite H2, H3, H4, H5, H10. simpl.
  unfold OpenAIConfig_init, AgentConfig_init.
  rewrite (validate_api_key_Ok _ K1 K2), (validate_iterations_Ok _ K3).
  simpl. f_equal. symmetry.
  destruct c as [[] [] [] []]; simpl in *. by subst.
Qed.

Lemma loads_iff e c : loads e c <-> class_Config e = Ok c.
Proof.
  unfold loads. split.
  - intros (p & Hs & Hl). apply startup_Ok in Hs as (d & Hd & ->).
    rewrite loaded_defaults in Hl. by injection Hl as <-.
  - intros Hc. eexists. split; [apply startup_Ok; eauto |].
    apply loaded_defaults.
Qed.




(** ** One variable at a time *)



Ltac solve_update :=
  apply loads_iff, class_Config_Ok_iff;
  unfold derived_from; simpl;
  rewrite ?getenv_insert_eq; rewrite ?getenv_insert_ne by done;
  repeat split; auto; try lia.

(** X5: the model name, the memory type, the collection name and the
    directory are not checked: any string, the empty one included, keeps a
    starting module starting, is stored as given (the directory as the path
    it spells), and changes no other field. *)
Theorem string_variables_verbatim (e : gmap string string) (s : string)
    (c : Config) :
  loads e c ->
  loads (<["OPENAI_MODEL" := s]> e)
    {| openai := {| api_key := api_key (openai c); model := s;
                    temperature := temperature (openai c);
                    max_tokens := max_tokens (openai c) |};
       agent := agent c; memory := memory c; cost := cost c |} /\
  loads (<["MEMORY_TYPE" := s]> e)
    {| openai := openai c; agent := agent c;
       memory := {| memory_type := s;
                    collection_name := collection_name (memory c);
                    persist_directory := persist_directory (memory c) |};
       cost := cost c |} /\
  loads (<["MEMORY_COLLECTION_NAME" := s]> e)
    {| openai := openai c; agent := agent c;
       memory := {| memory_type := memory_type (memory c);
                    collection_name := s;
                    persist_directory := persist_directory (memory c) |};
       cost := cost c |} /\
  loads (<["MEMORY_PERSIST_DIRECTORY" := s]> e)
    {| openai := openai c; agent := agent c;
       memory := {| memory_type := memory_type (memory c);
                    collection_name := collection_name (memory c);
                    persist_directory := Py.Path_ s |};
       cost := cost c |}.
Proof.
  intros H. apply loads_iff, class_Config_Ok_iff in H
    as ((H0 & H1 & H2 & H3 & H4 & H5 & H6 & H7 & H8 & H9 & H10 & H11)
        & K1 & K2 & K3).
  repeat split; solve_update.
Qed.


(** ** Bytes and characters *)

Lemma decode_nil : Py.decode [] = [].
Proof. reflexivity. Qed.

Lemma decode_cons b1 r1 :
  Py.decode (b1 :: r1)
  = if (Py.code b1 <? 128)%N then Py.code b1 :: Py.decode r1
    else
      match r1 with
      | b2 :: r2 =>
          if Py.two_ok b1 b2 then Py.two_value b1 b2 :: Py.decode r2
          else
            match r2 with
            | b3 :: r3 =>
                if Py.three_ok b1 b2 b3
                then Py.three_value b1 b2 b3 :: Py.decode r3
                else
                  match r3 with
                  | b4 :: r4 =>
                      if Py.four_ok b1 b2 b3 b4
                      then Py.four_value b1 b2 b3 b4 :: Py.decode r4
                      else Py.escape b1 :: Py.decode r1
                  | [] => Py.escape b1 :: Py.decode r1
                  end
            | [] => Py.escape b1 :: Py.decode r1
            end
      | [] => Py.escape b1 :: Py.decode r1
      end.
Proof. reflexivity. Qed.

Local Arguments Py.decode : simpl never.

(** A white-space character is below 127. *)
Lemma is_space_low c : Py.is_space c = true -> (Py.code c <? 127)%N = true.
Proof.
  unfold Py.is_space. intros H. apply N.ltb_lt.
  apply orb_true_iff in H as [H | H].
  - apply andb_true_iff in H as [_ H]. apply N.leb_le in H. lia.
  - apply N.eqb_eq in H. lia.
Qed.

Lemma low_lt_128 c : (Py.code c <? 127)%N = true -> (Py.code c <? 128)%N = true.
Proof. rewrite !N.ltb_lt. lia. Qed.

Lemma is_cont_low a : (Py.code a <? 128)%N = true -> Py.is_cont a = false.
Proof.
  unfold Py.is_cont. rewrite N.ltb_lt. intros H.
  apply andb_false_iff. left. apply N.leb_gt. exact H.
Qed.

Lemma two_ok_cont b1 b2 : Py.two_ok b1 b2 = true -> Py.is_cont b2 = true.
Proof.
  unfold Py.two_ok. intros H.
  by do 2 (apply andb_true_iff in H as [H _]).
Qed.

Lemma three_ok_cont b1 b2 b3 :
  Py.three_ok b1 b2 b3 = true -> Py.is_cont b2 = true /\ Py.is_cont b3 = true.
Proof.
  unfold Py.three_ok. intros H.
  do 4 (apply andb_true_iff in H as [H _]).
  by apply andb_true_iff in H.
Qed.

Lemma four_ok_cont b1 b2 b3 b4 :
  Py.four_ok b1 b2 b3 b4 = true ->
  Py.is_cont b2 = true /\ Py.is_cont b3 = true /\ Py.is_cont b4 = true.
Proof.
  unfold Py.four_ok. intros H.
  do 4 (apply andb_true_iff in H as [H _]).
  apply andb_true_iff in H as [H H4]. apply andb_true_iff in H as [H2 H3].
  auto.
Qed.

Lemma two_ok_low b1 a : (Py.code a <? 128)%N = true -> Py.two_ok b1 a = false.
Proof.
  intros H. destruct (Py.two_ok b1 a) eqn:E; [| reflexivity].
  apply two_ok_cont in E. by rewrite (is_cont_low a H) in E.
Qed.

Lemma three_ok_low2 b1 a b3 :
  (Py.code a <? 128)%N = true -> Py.three_ok b1 a b3 = false.
Proof.
  intros H. destruct (Py.three_ok b1 a b3) eqn:E; [| reflexivity].
  apply three_ok_cont in E as [E _]. by rewrite (is_cont_low a H) in E.
Qed.

Lemma three_ok_low3 b1 b2 a :
  (Py.code a <? 128)%N = true -> Py.three_ok b1 b2 a = false.
Proof.
  intros H. destruct (Py.three_ok b1 b2 a) eqn:E; [| reflexivity].
  apply three_ok_cont in E as [_ E]. by rewrite (is_cont_low a H) in E.
Qed.

Lemma four_ok_low2 b1 a b3 b4 :
  (Py.code a <? 128)%N = true -> Py.four_ok b1 a b3 b4 = false.
Proof.
  intros H. destruct (Py.four_ok b1 a b3 b4) eqn:E; [| reflexivity].
  apply four_ok_cont in E as (E & _ & _). by rewrite (is_cont_low a H) in E.
Qed.

Lemma four_ok_low3 b1 b2 a b4 :
  (Py.code a <? 128)%N = true -> Py.four_ok b1 b2 a b4 = false.
Proof.
  intros H. destruct (Py.four_ok b1 b2 a b4) eqn:E; [| reflexivity].
  apply four_ok_cont in E as (_ & E & _). by rewrite (is_cont_low a H) in E.
Qed.

Lemma four_ok_low4 b1 b2 b3 a :
  (Py.code a <? 128)%N = true -> Py.four_ok b1 b2 b3 a = false.
Proof.
  intros H. destruct (Py.four_ok b1 b2 b3 a) eqn:E; [| reflexivity].
  apply four_ok_cont in E as (_ & _ & E). by rewrite (is_cont_low a H) in E.
Qed.

(** ASCII bytes are read one by one. *)
Lemma decode_low_app (ls bs : list ascii) :
  forallb (fun c => (Py.code c <? 128)%N) ls = true ->
  Py.decode (ls ++ bs)%list = (map Py.code ls ++ Py.decode bs)%list.
Proof.
  induction ls as [| a ls IH]; simpl; [done |].
  intros H. apply andb_true_iff in H as [Ha Hls].
  by rewrite decode_cons, Ha, IH.
Qed.

Lemma decode_low (rs : list ascii) :
  forallb (fun c => (Py.code c <? 128)%N) rs = true ->
  Py.decode rs = map Py.code rs.
Proof.
  intros H. rewrite <- (app_nil_r rs) at 1.
  by rewrite (decode_low_app _ _ H), decode_nil, app_nil_r.
Qed.

(** A byte that starts no sequence is escaped when only ASCII bytes, or up
    to two bytes and then ASCII bytes, follow it. *)
Lemma decode_skip_0 b1 (rs : list ascii) :
  (Py.code b1 <? 128)%N = false ->
  forallb (fun c => (Py.code c <? 128)%N) rs = true ->
  Py.decode (b1 :: rs) = Py.escape b1 :: Py.decode rs.
Proof.
  intros E1 H. rewrite decode_cons, E1.
  destruct rs as [| a1 rs]; [reflexivity |].
  simpl in H. apply andb_true_iff in H as [H1 H].
  rewrite (two_ok_low _ _ H1).
  destruct rs as [| a2 rs]; [reflexivity |].
  rewrite (three_ok_low2 _ _ _ H1).
  destruct rs as [| a3 rs]; [reflexivity |].
  by rewrite (four_ok_low2 _ _ _ _ H1).
Qed.

Lemma decode_skip_1 b1 b2 (rs : list ascii) :
  (Py.code b1 <? 128)%N = false ->
  Py.two_ok b1 b2 = false ->
  forallb (fun c => (Py.code c <? 128)%N) rs = true ->
  Py.decode (b1 :: b2 :: rs) = Py.escape b1 :: Py.decode (b2 :: rs).
Proof.
  intros E1 E2 H. rewrite decode_cons, E1, E2.
  destruct rs as [| a1 rs]; [reflexivity |].
  simpl in H. apply andb_true_iff in H as [H1 H].
  rewrite (three_ok_low3 _ _ _ H1).
  destruct rs as [| a2 rs]; [reflexivity |].
  by rewrite (four_ok_low3 _ _ _ _ H1).
Qed.

Lemma decode_skip_2 b1 b2 b3 (rs : list ascii) :
  (Py.code b1 <? 128)%N = false ->
  Py.two_ok b1 b2 = false ->
  Py.three_ok b1 b2 b3 = false ->
  forallb (fun c => (Py.code c <? 128)%N) rs = true ->
  Py.decode (b1 :: b2 :: b3 :: rs)
  = Py.escape b1 :: Py.decode (b2 :: b3 :: rs).
Proof.
  intros E1 E2 E3 H. rewrite decode_cons, E1, E2, E3.
  destruct rs as [| a1 rs]; [reflexivity |].
  simpl in H. apply andb_true_iff in H as [H1 H].
  by rewrite (four_ok_low4 _ _ _ _ H1).
Qed.

(** An ASCII byte never completes a sequence, so ASCII bytes after a string
    do not change how the string is read. *)
Lemma decode_app_low (rs : list ascii) :
  forallb (fun c => (Py.code c <? 128)%N) rs = true ->
  forall n (bs : list ascii), (length bs <= n)%nat ->
    Py.decode (bs ++ rs)%list = (Py.decode bs ++ map Py.code rs)%list.
Proof.
  intros Hrs. induction n as [| n IH]; intros bs Hn.
  { destruct bs; [| simpl in Hn; lia].
    rewrite decode_nil. simpl. by apply decode_low. }
  destruct bs as [| b1 r1];
    [rewrite decode_nil; simpl; by apply decode_low |].
  simpl in Hn.
  assert (IH1 : Py.decode (r1 ++ rs)%list
                = (Py.decode r1 ++ map Py.code rs)%list)
    by (apply IH; lia).
  destruct (Py.code b1 <? 128)%N eqn:E1.
  { cbn [app]. by rewrite !decode_cons, E1, IH1. }
  destruct r1 as [| b2 r2].
  { cbn [app]. rewrite (decode_skip_0 b1 rs E1 Hrs).
    rewrite (decode_skip_0 b1 [] E1 eq_refl), decode_nil.
    by rewrite (decode_low rs Hrs). }
  destruct (Py.two_ok b1 b2) eqn:E2.
  { cbn [app]. rewrite !decode_cons, E1, E2. cbn [app].
    f_equal. apply IH. simpl in Hn. lia. }
  destruct r2 as [| b3 r3].
  { cbn [app] in *. rewrite (decode_skip_1 b1 b2 rs E1 E2 Hrs).
    rewrite (decode_skip_1 b1 b2 [] E1 E2 eq_refl).
    cbn [app]. by rewrite IH1. }
  destruct (Py.three_ok b1 b2 b3) eqn:E3.
  { cbn [app]. rewrite !decode_cons, E1, E2, E3. cbn [app].
    f_equal. apply IH. simpl in Hn. lia. }
  destruct r3 as [| b4 r4].
  { cbn [app] in *. rewrite (decode_skip_2 b1 b2 b3 rs E1 E2 E3 Hrs).
    rewrite (decode_skip_2 b1 b2 b3 [] E1 E2 E3 eq_refl).
    cbn [app]. by rewrite IH1. }
  cbn [app] in *.
  rewrite (decode_cons b1 (b2 :: b3 :: b4 :: (r4 ++ rs)%list)).
  rewrite (decode_cons b1 (b2 :: b3 :: b4 :: r4)).
  rewrite E1, E2, E3.
  destruct (Py.four_ok b1 b2 b3 b4) eqn:E4.
  - cbn [app]. f_equal. apply IH. simpl in Hn. lia.
  - cbn [app]. by rewrite IH1.
Qed.

Lemma transform_low_app (ls : list ascii) (cps : list N) :
  forallb (fun c => (Py.code c <? 127)%N) ls = true ->
  Py.transform (map Py.code ls ++ cps)%list = (ls ++ Py.transform cps)%list.
Proof.
  induction ls as [| a ls IH]; simpl; [done |].
  intros H. apply andb_true_iff in H as [Ha Hls].
  rewrite Ha, IH by done. unfold Py.code. by rewrite ascii_N_embedding.
Qed.

Lemma transform_low (ls : list ascii) :
  forallb (fun c => (Py.code c <? 127)%N) ls = true ->
  Py.transform (map Py.code ls) = ls.
Proof.
  intros H. rewrite <- (app_nil_r (map Py.code ls)).
  rewrite (transform_low_app _ _ H). simpl. apply app_nil_r.
Qed.

(** What follows a character that ends the string is not read. *)
Lemma transform_app (ds es : list N) :
  Py.transform (ds ++ es)%list = (Py.transform ds ++ Py.transform es)%list \/
  Py.transform (ds ++ es)%list = Py.transform ds.
Proof.
  induction ds as [| d ds IH]; simpl; [by left |].
  destruct (d <? 127)%N.
  { destruct IH as [-> | ->]; [by left | by right]. }
  destruct (unicode_space d).
  { destruct IH as [-> | ->]; [by left | by right]. }
  destruct (unicode_decimal d); [| by right].
  destruct IH as [-> | ->]; [by left | by right].
Qed.

Lemma map_ascii_code (ls : list ascii) : map ascii_of_N (map Py.code ls) = ls.
Proof.
  induction ls as [| a ls IH]; simpl; [done |].
  unfold Py.code at 1. by rewrite ascii_N_embedding, IH.
Qed.

Lemma forallb_space_low (ls : list ascii) :
  forallb Py.is_space ls = true ->
  forallb (fun c => (Py.code c <? 127)%N) ls = true /\
  forallb (fun c => (Py.code c <? 128)%N) ls = true /\
  forallb (fun cp => (cp <? 128)%N) (map Py.code ls) = true.
Proof.
  rewrite !forallb_forall. intros H. repeat split.
  - intros c Hc. apply is_space_low. auto.
  - intros c Hc. apply low_lt_128, is_space_low. auto.
  - intros cp Hcp. apply in_map_iff in Hcp as (c & <- & Hc).
    apply low_lt_128, is_space_low. auto.
Qed.

(** ** White space around numbers *)

Lemma lstrip_spaces_app ws cs :
  forallb Py.is_space ws = true -> Py.lstrip (ws ++ cs)%list = Py.lstrip cs.
Proof.
  induction ws as [| w ws IH]; simpl; [done |].
  intros H. apply andb_true_iff in H as [Hw Hws]. rewrite Hw. auto.
Qed.

Lemma lstrip_app_spaces cs ws :
  forallb Py.is_space ws = true ->
  Py.lstrip (cs ++ ws)%list
  = match Py.lstrip cs with
    | [] => []
    | _ :: _ => (Py.lstrip cs ++ ws)%list
    end.
Proof.
  intros H. induction cs as [| c cs IH]; simpl.
  - rewrite <- (app_nil_r ws). by apply lstrip_spaces_app.
  - destruct (Py.is_space c); [exact IH | reflexivity].
Qed.

Lemma forallb_rev_true {A} (f : A -> bool) l :
  forallb f l = true -> forallb f (rev l) = true.
Proof.
  rewrite !forallb_forall. intros H x Hx. apply H. by apply in_rev.
Qed.

Lemma strip_pad ws cs ws' :
  forallb Py.is_space ws = true -> forallb Py.is_space ws' = true ->
  Py.strip (ws ++ cs ++ ws')%list = Py.strip cs.
Proof.
  intros H H'. unfold Py.strip.
  rewrite (lstrip_spaces_app _ _ H), (lstrip_app_spaces _ _ H').
  destruct (Py.lstrip cs) as [| c l] eqn:E; [reflexivity |].
  rewrite rev_app_distr.
  by rewrite (lstrip_spaces_app _ _ (forallb_rev_true _ _ H')).
Qed.

Lemma strip_pad_l ws cs :
  forallb Py.is_space ws = true -> Py.strip (ws ++ cs)%list = Py.strip cs.
Proof.
  intros H. unfold Py.strip. by rewrite (lstrip_spaces_app _ _ H).
Qed.

Lemma list_ascii_of_string_app a b :
  list_ascii_of_string (a ++ b)%string
  = (list_ascii_of_string a ++ list_ascii_of_string b)%list.
Proof. induction a as [| c a IH]; simpl; [done | by rewrite IH]. Qed.

(** White space at both ends of the bytes is white space at both ends of
    the characters that [int] and [float] read. *)
Lemma chars_pad l s r :
  all_space l -> all_space r ->
  Py.strip (Py.chars_of (l ++ s ++ r)%string) = Py.strip (Py.chars_of s).
Proof.
  unfold all_space, Py.chars_of. intros Hl Hr.
  rewrite !list_ascii_of_string_app.
  set (L := list_ascii_of_string l) in *.
  set (R := list_ascii_of_string r) in *.
  set (B := list_ascii_of_string s).
  destruct (forallb_space_low L Hl) as (Hl7 & Hl8 & HlN).
  destruct (forallb_space_low R Hr) as (Hr7 & Hr8 & HrN).
  rewrite (decode_low_app L _ Hl8).
  rewrite (decode_app_low R Hr8 (length B) B) by lia.
  unfold Py.to_ascii. rewrite !forallb_app, HlN, HrN, andb_true_r. simpl.
  destruct (forallb (fun cp => (cp <? 128)%N) (Py.decode B)).
  - rewrite !map_app, !map_ascii_code. by apply strip_pad.
  - rewrite (transform_low_app L _ Hl7).
    destruct (transform_app (Py.decode B) (map Py.code R)) as [-> | ->].
    + rewrite (transform_low R Hr7). by apply strip_pad.
    + by apply strip_pad_l.
Qed.

Lemma int_of_chars_strip cs cs' :
  Py.strip cs = Py.strip cs' -> Py.int_of_chars cs = Py.int_of_chars cs'.
Proof. intros H. unfold Py.int_of_chars. by rewrite H. Qed.

Lemma float_of_chars_strip cs cs' :
  Py.strip cs = Py.strip cs' -> Py.float_of_chars cs = Py.float_of_chars cs'.
Proof. intros H. unfold Py.float_of_chars. by rewrite H. Qed.

Lemma int_pad l s r :
  all_space l -> all_space r -> Py.int_ (l ++ s ++ r)%string = Py.int_ s.
Proof.
  intros Hl Hr. unfold Py.int_.
  by apply int_of_chars_strip, chars_pad.
Qed.

Lemma float_pad l s r :
  all_space l -> all_space r -> Py.float_ (l ++ s ++ r)%string = Py.float_ s.
Proof.
  intros Hl Hr. unfold Py.float_.
  by apply float_of_chars_strip, chars_pad.
Qed.

Ltac same_aggregates H :=
  intros c; rewrite !loads_iff, !class_Config_Ok_iff; unfold derived_from;
  rewrite ?getenv_insert_eq; rewrite ?getenv_insert_ne by done;
  rewrite H; reflexivity.

(** X7: tabs, line feeds, vertical tabs, form feeds, carriage returns and
    spaces before and after the value of a numeric variable are ignored:
    [int] and [float] give the same result with and without them, so the
    module loads the same aggregate from the padded value as from the bare
    one, for each of the five numeric variables. *)
Theorem numeric_padding_ignored (e : gmap string string) (l s r : string) :
  all_space l -> all_space r ->
  Py.int_ (l ++ s ++ r)%string = Py.int_ s /\
  Py.float_ (l ++ s ++ r)%string = Py.float_ s /\
  (forall c, loads (<["MAX_TOKENS" := (l ++ s ++ r)%string]> e) c
             <-> loads (<["MAX_TOKENS" := s]> e) c) /\
  (forall c, loads (<["AGENT_MAX_ITERATIONS" := (l ++ s ++ r)%string]> e) c
             <-> loads (<["AGENT_MAX_ITERATIONS" := s]> e) c) /\
  (forall c, loads (<["AGENT_MAX_EXECUTION_TIME" := (l ++ s ++ r)%string]> e) c
             <-> loads (<["AGENT_MAX_EXECUTION_TIME" := s]> e) c) /\
  (forall c, loads (<["OPENAI_TEMPERATURE" := (l ++ s ++ r)%string]> e) c
             <-> loads (<["OPENAI_TEMPERATURE" := s]> e) c) /\
  (forall c, loads (<["MAX_COST_PER_REQUEST" := (l ++ s ++ r)%string]> e) c
             <-> loads (<["MAX_COST_PER_REQUEST" := s]> e) c).
Proof.
  intros Hl Hr.
  pose proof (int_pad l s r Hl Hr) as Hi.
  pose proof (float_pad l s r Hl Hr) as Hf.
  split; [exact Hi |]. split; [exact Hf |].
  split; [same_aggregates Hi |]. split; [same_aggregates Hi |].
  split; [same_aggregates Hi |]. split; [same_aggregates Hf |].
  same_aggregates Hf.
Qed.

(** ** Spellings of the directory *)

Lemma splitroot_relative s : relative s -> Py.splitroot s = ("", s).
Proof.
  destruct s as [| c s]; [reflexivity |]. simpl. intros H.
  destruct c as [[] [] [] [] [] [] [] []]; try reflexivity.
  exfalso. by apply H.
Qed.

Lemma Path_dot_slash s : relative s -> Py.Path_ ("./" ++ s)%string = Py.Path_ s.
Proof.
  intros H. unfold Py.Path_.
  rewrite (splitroot_relative s H). reflexivity.
Qed.

(** X8: writing the directory from the current directory with a leading
    [./] or without it makes no difference: the class body gives the same
    result for both spellings of a relative path. *)
Theorem directory_dot_slash (e : gmap string string) (s : string) :
  relative s ->
  Py.Path_ ("./" ++ s)%string = Py.Path_ s /\
  class_Config (<["MEMORY_PERSIST_DIRECTORY" := ("./" ++ s)%string]> e)
  = class_Config (<["MEMORY_PERSIST_DIRECTORY" := s]> e).
Proof.
  intros H. split; [by apply Path_dot_slash |].
  unfold class_Config, openai_default, agent_default, memory_default,
    cost_default, flag.
  rewrite !getenv_insert_eq. rewrite !getenv_insert_ne by done.
  by rewrite (Path_dot_slash s H).
Qed.

(** ** Where the credential comes from *)

(** X9: when the module starts after the environment file has been merged,
    the credential it holds is the one of the process environment if that
    has one, and otherwise the one the file binds last: a module cannot
    start with a credential from neither. *)
Theorem credential_source
    (file : option (list (string * option string)))
    (e : gmap string string) (p : process) (c : Config) :
  import_module file e = Ok p ->
  loaded p = Some c ->
  (forall k, e !! "OPENAI_API_KEY" = Some k -> api_key (openai c) = k) /\
  (e !! "OPENAI_API_KEY" = None ->
   exists bindings, file = Some bindings /\
     Dotenv.dict_of bindings !! "OPENAI_API_KEY"
     = Some (Some (api_key (openai c)))).
Proof.
  unfold import_module. intros Hs Hl.
  assert (Hc : class_Config (Dotenv.load_dotenv file e) = Ok c)
    by (apply loads_iff; exists p; auto).
  apply class_Config_Ok_inv in Hc as ((H0 & _) & _ & K2 & _).
  unfold getenv in H0, K2. destruct file as [bindings |].
  - rewrite load_dotenv_lookup in H0, K2. split.
    + intros k Hk. rewrite Hk in H0. exact H0.
    + intros Hk. rewrite Hk in H0, K2. exists bindings.
      split; [reflexivity |].
      destruct (Dotenv.dict_of bindings !! "OPENAI_API_KEY") as [[w |] |];
        simpl in *; congruence.
  - simpl in H0, K2. split.
    + intros k Hk. rewrite Hk in H0. exact H0.
    + intros Hk. rewrite Hk in K2. by destruct K2.
Qed.

(** ** The aggregates of a process *)

Lemma step_heap p a :
  heap (step p a)
  = if is_Load a then (heap p ++ [Config_defaults p])%list else heap p.
Proof. by destruct a. Qed.

Lemma run_heap_all_defaults p acts :
  Forall (fun c => c = Config_defaults p) (heap p) ->
  Forall (fun c => c = Config_defaults p) (heap (run p acts)).
Proof.
  revert p. induction acts as [| a acts IH]; intros p H; simpl; [done |].
  change (Forall (fun c => c = Config_defaults p) (heap (run (step p a) acts))).
  rewrite <- (step_defaults p a). apply IH.
  rewrite step_heap, step_defaults.
  destruct (is_Load a); [| exact H].
  apply Forall_app. split; [exact H | by constructor].
Qed.

Lemma run_heap_length p acts :
  length (heap (run p acts))
  = (length (heap p) + length (List.filter is_Load acts))%nat.
Proof.
  revert p. induction acts as [| a acts IH]; intros p; simpl; [lia |].
  change (length (heap (run (step p a) acts))
          = (length (heap p)
             + length (if is_Load a then a :: List.filter is_Load acts
                       else List.filter is_Load acts))%nat).
  rewrite IH, step_heap.
  destruct (is_Load a); simpl; rewrite ?length_app; simpl; lia.
Qed.

(** X10: in a process that has started, at any later time, every aggregate
    that exists, the global [config] and each one the loader has returned,
    equals the class defaults and so satisfies both checks (credential not
    empty and not the placeholder, iteration count in [1,50]); the loader
    has created exactly one aggregate per call, and the next call returns a
    reference that is not in use. *)
Theorem process_aggregates (e : gmap string string) (p : process)
    (acts : list action) :
  startup e = Ok p ->
  Forall (fun c => c = Config_defaults p /\
                   api_key (openai c) <> "" /\
                   api_key (openai c) <> sentinel /\
                   1 <= max_iterations (agent c) <= 50)
         (heap (run p acts)) /\
  length (heap (run p acts)) = S (length (List.filter is_Load acts)) /\
  heap (run p acts) !! (Config_load (run p acts)).1 = None.
Proof.
  intros Hs. apply startup_Ok in Hs as (d & Hd & ->).
  apply class_Config_Ok_inv in Hd as ((H0 & _) & K1 & K2 & K3).
  split; [| split].
  - eapply Forall_impl.
    + apply run_heap_all_defaults. simpl. by repeat constructor.
    + simpl. intros c ->. rewrite H0. auto.
  - by rewrite run_heap_length.
  - simpl. by apply lookup_ge_None.
Qed.

(** ** Integer variables *)













(** ** The one required variable *)

(** X12: the credential is the only variable that must be set. An
    environment holding nothing but a credential that is not empty and not
    the placeholder starts the module with every other field at its default
    and the credential stored as given; and no module starts from an
    environment in which the credential is not set. *)
Theorem credential_alone_suffices (k : string) :
  k <> "" -> k <> sentinel ->
  loads {[ "OPENAI_API_KEY" := k ]}
    {| openai := {| api_key := k; model := "gpt-4-turbo-preview";
                    temperature := float_zero; max_tokens := 4096 |};
       agent := {| max_iterations := 10; max_execution_time := 300;
                   verbose := true |};
       memory := {| memory_type := "chromadb";
                    collection_name := "agent_memory";
                    persist_directory := Py.Path_ "./data/memory" |};
       cost := {| max_cost_per_request := float_one;
                  enable_cost_tracking := true |} |} /\
  (forall (e : gmap string string) c, loads e c ->
     e !! "OPENAI_API_KEY" = Some (api_key (openai c))).
Proof.
  intros K1 K2. split.
  - apply loads_iff, class_Config_Ok_iff.
    unfold derived_from, getenv. simpl.
    rewrite lookup_singleton_eq. rewrite !lookup_singleton_ne by done.
    simpl. repeat split; (reflexivity || assumption || lia).
  - intros e c H. apply loads_iff, class_Config_Ok_inv in H
      as ((H0 & _) & _ & K & _).
    unfold getenv in H0, K.
    destruct (e !! "OPENAI_API_KEY") as [k' |]; simpl in *; congruence.
Qed.

End Loader.

(** ** Instances

    The statements above at sample inputs, for an interpreter started
    without options. *)

#[local] Existing Instance cpython.





Lemma iteration_count_range_witness :
  AgentConfig_init (-3) 300 true = Raise iterations_error.
Proof.
  apply (iteration_count_range (-3) 300 true). lia.
Defined.



Lemma unset_gives_default_witness :
  model (openai Config_key_only) = "gpt-4-turbo-preview" /\
  temperature (openai Config_key_only) = float_zero /\
  persist_directory (memory Config_key_only) = Py.Path_ "./data/memory" /\
  max_cost_per_request (cost Config_key_only) = float_one.
Proof.
  destruct (unset_gives_default env_key_only process_key_only Config_key_only)
    as (H1 & H2 & _ & _ & _ & _ & _ & _ & H9 & H10 & _);
    [reflexivity | reflexivity |].
  split; [apply H1; reflexivity |]. split; [apply H2; reflexivity |].
  split; [apply H9; reflexivity | apply H10; reflexivity].
Defined.

Lemma boolean_coercion_witness :
  exists p1 c1, startup (<["AGENT_VERBOSE" := "False"]> env_key_only) = Ok p1 /\
    loaded p1 = Some c1 /\
    (verbose (agent c1) = true <-> true_variant "False") /\
    (~ true_variant "False" -> verbose (agent c1) = false).
Proof.
  pose proof (boolean_coercion env_key_only "False" process_key_only) as H.
  assert (E : startup env_key_only = Ok process_key_only) by reflexivity.
  destruct (H E) as (_ & H1 & _). exact H1.
Defined.

Lemma load_twice_witness :
  exists c1 c2,
    heap (Config_load (Config_load process_key_only).2).2
      !! (Config_load process_key_only).1 = Some c1 /\
    heap (Config_load (Config_load process_key_only).2).2
      !! (Config_load (Config_load process_key_only).2).1 = Some c2 /\
    c1 = c2.
Proof.
  destruct (load_twice env_key_only process_key_only)
    as (_ & _ & _ & c1 & c2 & H1 & H2 & H3 & _); [reflexivity |].
  exists c1, c2. auto.
Defined.

Lemma load_dotenv_additive_witness :
  Dotenv.load_dotenv
    (Some [("OPENAI_API_KEY", Some "from-file"); ("MEMORY_TYPE", Some "redis")])
    env_key_only !! "OPENAI_API_KEY" = Some "sk-live".
Proof.
  apply (load_dotenv_additive
           (Some [("OPENAI_API_KEY", Some "from-file");
                  ("MEMORY_TYPE", Some "redis")])
           env_key_only "OPENAI_API_KEY").
  reflexivity.
Defined.

Lemma aggregates_never_mutated_witness :
  heap (run (run process_key_only [Load]) env_changes) !! 1%nat
  = Some Config_key_only.
Proof.
  destruct (aggregates_never_mutated env_key_only process_key_only
              [Load] env_changes 1%nat Config_key_only) as (H & _);
    [reflexivity | reflexivity | exact H].
Defined.

Lemma load_ignores_later_environment_witness :
  os_environ (run process_key_only env_changes) !! "OPENAI_API_KEY" = None /\
  exists d, class_Config env_key_only = Ok d /\ derived_from env_key_only d /\
    heap (run process_key_only env_changes) !! config = Some d /\
    loaded (run process_key_only env_changes) = Some d /\
    loaded (run process_key_only []) = loaded (run process_key_only env_changes).
Proof.
  split; [reflexivity |].
  apply (load_ignores_later_environment env_key_only process_key_only
           env_changes []).
  reflexivity.
Defined.




Lemma string_variables_verbatim_witness :
  loads env_empty_model
    {| openai := {| api_key := "sk-live"; model := "";
                    temperature := float_zero; max_tokens := 4096 |};
       agent := agent Config_key_only; memory := memory Config_key_only;
       cost := cost Config_key_only |}.
Proof.
  destruct (string_variables_verbatim env_key_only "" Config_key_only)
    as (H & _).
  - exists process_key_only. split; reflexivity.
  - exact H.
Defined.


Lemma numeric_padding_ignored_witness :
  Py.int_ (" " ++ "25" ++ " ")%string = Py.int_ "25".
Proof.
  destruct (numeric_padding_ignored env_key_only " " "25" " ") as (H & _);
    [reflexivity | reflexivity | exact H].
Defined.

Lemma directory_dot_slash_witness :
  class_Config (<["MEMORY_PERSIST_DIRECTORY" := "./var/store"]> env_key_only)
  = class_Config (<["MEMORY_PERSIST_DIRECTORY" := "var/store"]> env_key_only).
Proof.
  destruct (directory_dot_slash env_key_only "var/store") as (_ & H);
    [simpl; discriminate | exact H].
Defined.

Lemma credential_source_witness :
  (forall k, (∅ : gmap string string) !! "OPENAI_API_KEY" = Some k ->
             api_key (openai Config_from_file) = k) /\
  ((∅ : gmap string string) !! "OPENAI_API_KEY" = None ->
   exists bindings, file_with_key = Some bindings /\
     Dotenv.dict_of bindings !! "OPENAI_API_KEY"
     = Some (Some (api_key (openai Config_from_file)))).
Proof.
  apply (credential_source file_with_key ∅
           {| os_environ := Dotenv.load_dotenv file_with_key ∅;
              Config_defaults := Config_from_file;
              heap := [Config_from_file] |} Config_from_file);
    reflexivity.
Defined.

Lemma process_aggregates_witness :
  length (heap (run process_key_only env_changes)) = 2%nat.
Proof.
  destruct (process_aggregates env_key_only process_key_only env_changes)
    as (_ & H & _); [reflexivity | exact H].
Defined.


Lemma credential_alone_suffices_witness :
  loads {[ "OPENAI_API_KEY" := " " ]}
    {| openai := {| api_key := " "; model := "gpt-4-turbo-preview";
                    temperature := float_zero; max_tokens := 4096 |};
       agent := {| max_iterations := 10; max_execution_time := 300;
                   verbose := true |};
       memory := {| memory_type := "chromadb";
                    collection_name := "agent_memory";
                    persist_directory := Py.Path_ "./data/memory" |};
       cost := {| max_cost_per_request := float_one;
                  enable_cost_tracking := true |} |}.
Proof.
  destruct (credential_alone_suffices " ") as (H & _);
    [discriminate | discriminate | exact H].
Defined.

(** The digit limit of the interpreter decides whether a long literal is
    read: the same environment starts the module in an interpreter without
    limit and does not in one with the limit 4300. *)
Lemma digit_limit_decides :
  startup (I := cpython) env_long_tokens
  = Raise (IntError (string_of_list_ascii (repeat "1"%char 4301))) /\
  exists p, startup (I := cpython_no_limit) env_long_tokens = Ok p.
Proof.
  split; [vm_compute; reflexivity |].
  eexists. vm_compute. reflexivity.
Qed.

(** Characters outside ASCII count: full-width digits and a no-break space
    are read as a number, a separator character 0x1C is not skipped. *)
Lemma unicode_numbers :
  Py.int_ (string_of_list_ascii
             (map ascii_of_N [239; 188; 148; 239; 188; 144]%N)) = Some 40 /\
  Py.int_ (string_of_list_ascii (map ascii_of_N [32; 53; 194; 160]%N))
  = Some 5 /\
  Py.int_ (string_of_list_ascii (map ascii_of_N [28; 53]%N)) = None.
Proof. repeat split; vm_compute; reflexivity. Qed.
